(** * Fusion rules for sparse convolution, batch-norm and ReLU

    A shallow embedding of [spconv/pytorch/quantization/fuse_mapping.py]:
    the two dispatcher functions [fuse_conv_bn] and [fuse_conv_bn_relu] and
    the two static tables [DEFAULT_SPCONV_OP_LIST_TO_FUSER_METHOD] and
    [DEFAULT_SPCONV_QAT_MODULE_MAPPINGS].

    Python objects are records holding exactly the attributes the file
    reads; Python classes are an inductive type compared by identity;
    dictionaries are insertion-ordered association lists built the way a
    dict display is evaluated; exceptions and the order of the observable
    steps (assertions, dictionary lookups, the call of the external fold
    routine, constructor calls) are kept in a small trace-and-error monad. *)

From Stdlib Require Import List String ZArith Bool Lia.
Import ListNotations.
Local Open Scope string_scope.
Local Open Scope Z_scope.
Local Set Warnings "-register-all".

(** ** Python classes

    The nine sparse convolution classes of [spconv.pytorch], the two
    [torch.nn] classes named by the tables, the three intrinsic wrappers of
    module [intrinsic], the two quantization-aware classes of module
    [conv_fused], and every other class: a class unrelated to these
    ([OtherClass]) or a class derived from another one ([Subclass]). *)
Inductive PyClass : Type :=
| SubMConv1d | SparseConv1d | SparseInverseConv1d
| SubMConv2d | SparseConv2d | SparseInverseConv2d
| SubMConv3d | SparseConv3d | SparseInverseConv3d
| BatchNorm1d | ReLU
| SpconvBnNd | SpconvBnReLUNd | SpconvReLUNd
| SparseConvBn | SparseConvBnReLU
| OtherClass (name : string)
| Subclass (name : string) (base : PyClass).

Definition PyClass_eq_dec : forall a b : PyClass, {a = b} + {a <> b}.
Proof. decide equality; apply string_dec. Defined.

(** Classes are hashed and compared by identity. *)
Definition class_eqb (a b : PyClass) : bool :=
  if PyClass_eq_dec a b then true else false.

(** Tuples of classes (the keys of the op-sequence table) compare
    element-wise. *)
Fixpoint tuple_eqb (a b : list PyClass) : bool :=
  match a, b with
  | [], [] => true
  | x :: a', y :: b' => class_eqb x y && tuple_eqb a' b'
  | _, _ => false
  end.


(** The nine supported variants, in the order the source lists them. *)
Definition supported_convs : list PyClass :=
  [ SubMConv1d; SparseConv1d; SparseInverseConv1d;
    SubMConv2d; SparseConv2d; SparseInverseConv2d;
    SubMConv3d; SparseConv3d; SparseInverseConv3d ].

Definition is_supported (c : PyClass) : bool :=
  existsb (class_eqb c) supported_convs.

(** ** Dictionaries

    A dict keeps its items in insertion order; storing under a key that is
    already present replaces the value in place. *)
Section Dict.
Context {K V : Type} (eqb : K -> K -> bool).

Definition dict : Type := list (K * V)%type.

Fixpoint dict_set (d : dict) (k : K) (v : V) : dict :=
  match d with
  | [] => [(k, v)]
  | (k', v') :: rest =>
      if eqb k k' then (k', v) :: rest else (k', v') :: dict_set rest k v
  end.

(** A dict display [{k1: v1, k2: v2, ...}] stores its items left to
    right. *)
Definition dict_display (items : list (K * V)%type) : dict :=
  fold_left (fun d kv => dict_set d (fst kv) (snd kv)) items [].

(** [d.get(k, None)] *)
Fixpoint dict_get (d : dict) (k : K) : option V :=
  match d with
  | [] => None
  | (k', v) :: rest => if eqb k k' then Some v else dict_get rest k
  end.

Definition dict_keys (d : dict) : list K := map fst d.
End Dict.

(** ** Assertion messages

    The messages of the assertions, named for the statements below: one
    for the mode check (the same text in both functions) and one per
    batch-norm condition and function. *)
Definition mode_msg : string :=
  "Conv and BN both must be in the same mode (train or eval).".
Definition channels_msg_bn : string :=
  "Output channel of Conv2d must match num_features of BatchNorm2d".
Definition affine_msg_bn : string :=
  "Only support fusing BatchNorm2d with affine set to True".
Definition tracking_msg_bn : string :=
  "Only support fusing BatchNorm2d with tracking_running_stats set to True".
Definition channels_msg_bn_relu : string :=
  "Output channel of Conv must match num_features of BatchNorm".
Definition affine_msg_bn_relu : string :=
  "Only support fusing BatchNorm with affine set to True".
Definition tracking_msg_bn_relu : string :=
  "Only support fusing BatchNorm with tracking_running_stats set to True".

(** ** Modules, exceptions and the dispatcher *)
Section Fusion.
(** Everything of a layer the dispatcher passes along without reading
    it (weights, bias, running statistics). *)
Variable Tensor : Type.

Record Conv : Type := mkConv {
  conv_class : PyClass;          (* type(conv) *)
  conv_training : bool;          (* conv.training *)
  out_channels : Z;              (* conv.out_channels *)
  conv_params : Tensor
}.

Record BatchNorm : Type := mkBatchNorm {
  bn_training : bool;            (* bn.training *)
  num_features : Z;              (* bn.num_features *)
  affine : bool;                 (* bn.affine *)
  track_running_stats : bool;    (* bn.track_running_stats *)
  bn_state : Tensor
}.

Record Activation : Type := mkActivation {
  relu_training : bool           (* relu.training *)
}.

(** The attribute [training] is read from all three kinds of layer. *)
Class HasTraining (A : Type) : Type := training : A -> bool.
#[export] Instance Conv_training : HasTraining Conv := conv_training.
#[export] Instance BatchNorm_training : HasTraining BatchNorm := bn_training.
#[export] Instance Activation_training : HasTraining Activation := relu_training.

(** Modelled from the spec: the intrinsic wrapper classes of module
    [intrinsic] ([SpconvBnNd], [SpconvBnReLUNd], [SpconvReLUNd]) are not
    part of the source file; calling one of them constructs a wrapper of
    that class holding the arguments of the call, in order. *)
Inductive Module : Type :=
| ConvModule (c : Conv)
| BnModule (b : BatchNorm)
| ReLUModule (r : Activation)
| Intrinsic (cls : PyClass) (args : list Module).

Definition type_of (m : Module) : PyClass :=
  match m with
  | ConvModule c => conv_class c
  | BnModule _ => BatchNorm1d
  | ReLUModule _ => ReLU
  | Intrinsic cls _ => cls
  end.

(** Exceptions raised inside the external fold routine. *)
Variable ExtExc : Type.

(** [NotImplementedError] carries its message split into the literal
    prefix and the tuple of modules formatted into it. *)
Inductive PyExc : Type :=
| AssertionError (msg : string)
| NotImplementedError (msg : string) (operands : list Module)
| Propagated (e : ExtExc).

(** The observable steps of a call. *)
Inductive Event : Type :=
| EvAssert (msg : string)
| EvLookup (key : PyClass)
| EvFold (conv : Conv) (bn : BatchNorm)
| EvConstruct (cls : PyClass) (args : list Module).

(** A computation yields the steps it performed and either the
    exception that ended it or its value. *)
Definition Fuse (A : Type) : Type := (list Event * (PyExc + A))%type.

Definition events {A} (m : Fuse A) : list Event := fst m.
Definition outcome {A} (m : Fuse A) : (PyExc + A)%type := snd m.

Definition ret {A} (a : A) : Fuse A := ([], inr a).

Definition bind {A B} (m : Fuse A) (f : A -> Fuse B) : Fuse B :=
  match outcome m with
  | inl e => (events m, inl e)
  | inr a => ((events m ++ events (f a))%list, outcome (f a))
  end.

Definition raise {A} (e : PyExc) : Fuse A := ([], inl e).

(** [assert cond, msg] *)
Definition assert_ (cond : bool) (msg : string) : Fuse unit :=
  ([EvAssert msg], if cond then inr tt else inl (AssertionError msg)).

(** [table.get(key, None)] on a table keyed by classes. *)
Definition get (table : @dict PyClass PyClass) (key : PyClass)
  : Fuse (option PyClass) :=
  ([EvLookup key], inr (dict_get class_eqb table key)).

(** Calling an intrinsic wrapper class [cls] on the tuple [args]. *)
Definition construct (cls : PyClass) (args : list Module) : Fuse Module :=
  ([EvConstruct cls args], inr (Intrinsic cls args)).

(** The external routine [utils.fuse_spconv_bn_eval(conv, bn)]: it
    returns the folded convolution or raises. *)
Variable fuse_spconv_bn_eval : Conv -> BatchNorm -> (ExtExc + Conv)%type.

Definition call_fuse_spconv_bn_eval (conv : Conv) (bn : BatchNorm)
  : Fuse Conv :=
  ([EvFold conv bn],
   match fuse_spconv_bn_eval conv bn with
   | inl e => inl (Propagated e)
   | inr fused_conv => inr fused_conv
   end).

Notation "x <- m ;; k" := (bind m (fun x => k))
  (at level 61, m at next level, right associativity).
Notation "m ;; k" := (bind m (fun _ => k))
  (at level 61, right associativity).

(** *** [fuse_conv_bn] *)
Definition fuse_conv_bn (conv : Conv) (bn : BatchNorm) : Fuse Module :=
  assert_ (Bool.eqb (training conv) (training bn))
    "Conv and BN both must be in the same mode (train or eval)." ;;
  let fused_module_class_map := dict_display class_eqb
    [ (SubMConv1d, SpconvBnNd);
      (SparseConv1d, SpconvBnNd);
      (SparseInverseConv1d, SpconvBnNd);
      (SubMConv2d, SpconvBnNd);
      (SparseConv2d, SpconvBnNd);
      (SparseInverseConv2d, SpconvBnNd);
      (SubMConv3d, SpconvBnNd);
      (SparseConv3d, SpconvBnNd);
      (SparseInverseConv3d, SpconvBnNd) ] in
  if training conv then
    assert_ (num_features bn =? out_channels conv)
      "Output channel of Conv2d must match num_features of BatchNorm2d" ;;
    assert_ (affine bn)
      "Only support fusing BatchNorm2d with affine set to True" ;;
    assert_ (track_running_stats bn)
      "Only support fusing BatchNorm2d with tracking_running_stats set to True" ;;
    fused_module_class <- get fused_module_class_map (conv_class conv) ;;
    match fused_module_class with
    | Some cls => construct cls [ConvModule conv; BnModule bn]
    | None =>
        raise (NotImplementedError "Cannot fuse train modules: "
                 [ConvModule conv; BnModule bn])
    end
  else
    fused_conv <- call_fuse_spconv_bn_eval conv bn ;;
    ret (ConvModule fused_conv).

(** *** [fuse_conv_bn_relu]

    The chained comparison [a == b == c] is [a == b and b == c]. *)
Definition fuse_conv_bn_relu (conv : Conv) (bn : BatchNorm) (relu : Activation)
  : Fuse Module :=
  assert_ (Bool.eqb (training conv) (training bn)
           && Bool.eqb (training bn) (training relu))
    "Conv and BN both must be in the same mode (train or eval)." ;;
  if training conv then
    let map_to_fused_module_train := dict_display class_eqb
      [ (SubMConv1d, SpconvBnReLUNd);
        (SparseConv1d, SpconvBnReLUNd);
        (SparseInverseConv1d, SpconvBnReLUNd);
        (SubMConv2d, SpconvBnReLUNd);
        (SparseConv2d, SpconvBnReLUNd);
        (SparseInverseConv2d, SpconvBnReLUNd);
        (SubMConv3d, SpconvBnReLUNd);
        (SparseConv3d, SpconvBnReLUNd);
        (SparseInverseConv3d, SpconvBnReLUNd) ] in
    assert_ (num_features bn =? out_channels conv)
      "Output channel of Conv must match num_features of BatchNorm" ;;
    assert_ (affine bn)
      "Only support fusing BatchNorm with affine set to True" ;;
    assert_ (track_running_stats bn)
      "Only support fusing BatchNorm with tracking_running_stats set to True" ;;
    fused_module <- get map_to_fused_module_train (conv_class conv) ;;
    match fused_module with
    | Some cls => construct cls [ConvModule conv; BnModule bn; ReLUModule relu]
    | None =>
        raise (NotImplementedError "Cannot fuse train modules: "
                 [ConvModule conv; BnModule bn; ReLUModule relu])
    end
  else
    let map_to_fused_module_eval := dict_display class_eqb
      [ (SubMConv1d, SpconvReLUNd);
        (SparseConv1d, SpconvReLUNd);
        (SparseInverseConv1d, SpconvReLUNd);
        (SubMConv2d, SpconvReLUNd);
        (SparseConv2d, SpconvReLUNd);
        (SparseInverseConv2d, SpconvReLUNd);
        (SubMConv3d, SpconvReLUNd);
        (SparseConv3d, SpconvReLUNd);
        (SparseInverseConv3d, SpconvReLUNd) ] in
    fused_module <- get map_to_fused_module_eval (conv_class conv) ;;
    match fused_module with
    | Some cls =>
        fused_conv <- call_fuse_spconv_bn_eval conv bn ;;
        construct cls [ConvModule fused_conv; ReLUModule relu]
    | None =>
        raise (NotImplementedError "Cannot fuse eval modules: "
                 [ConvModule conv; BnModule bn; ReLUModule relu])
    end.

(** *** The static tables *)

(** A fuser method takes two or three layers. *)
Inductive FuserMethod : Type :=
| Fuser2 (f : Conv -> BatchNorm -> Fuse Module)
| Fuser3 (f : Conv -> BatchNorm -> Activation -> Fuse Module).

Definition DEFAULT_SPCONV_OP_LIST_TO_FUSER_METHOD
  : @dict (list PyClass) FuserMethod :=
  dict_display tuple_eqb
    [ ([SubMConv1d; BatchNorm1d], Fuser2 fuse_conv_bn);
      ([SubMConv1d; BatchNorm1d; ReLU], Fuser3 fuse_conv_bn_relu);
      ([SparseConv1d; BatchNorm1d], Fuser2 fuse_conv_bn);
      ([SparseConv1d; BatchNorm1d; ReLU], Fuser3 fuse_conv_bn_relu);
      ([SparseInverseConv1d; BatchNorm1d], Fuser2 fuse_conv_bn);
      ([SparseInverseConv1d; BatchNorm1d; ReLU], Fuser3 fuse_conv_bn_relu);
      ([SubMConv2d; BatchNorm1d], Fuser2 fuse_conv_bn);
      ([SubMConv2d; BatchNorm1d; ReLU], Fuser3 fuse_conv_bn_relu);
      ([SparseConv2d; BatchNorm1d], Fuser2 fuse_conv_bn);
      ([SparseConv2d; BatchNorm1d; ReLU], Fuser3 fuse_conv_bn_relu);
      ([SparseInverseConv2d; BatchNorm1d], Fuser2 fuse_conv_bn);
      ([SparseInverseConv2d; BatchNorm1d; ReLU], Fuser3 fuse_conv_bn_relu);
      ([SubMConv3d; BatchNorm1d], Fuser2 fuse_conv_bn);
      ([SubMConv3d; BatchNorm1d; ReLU], Fuser3 fuse_conv_bn_relu);
      ([SparseConv3d; BatchNorm1d], Fuser2 fuse_conv_bn);
      ([SparseConv3d; BatchNorm1d; ReLU], Fuser3 fuse_conv_bn_relu);
      ([SparseInverseConv3d; BatchNorm1d], Fuser2 fuse_conv_bn);
      ([SparseInverseConv3d; BatchNorm1d; ReLU], Fuser3 fuse_conv_bn_relu) ].

(** The error taxonomy of the specification, read off the exception a
    call raised itself. *)
Definition config_msgs : list string :=
  [ channels_msg_bn; affine_msg_bn; tracking_msg_bn;
    channels_msg_bn_relu; affine_msg_bn_relu; tracking_msg_bn_relu ].

Definition is_ModeMismatch (e : PyExc) : bool :=
  match e with
  | AssertionError msg => String.eqb msg mode_msg
  | _ => false
  end.

Definition is_ConfigurationError (e : PyExc) : bool :=
  match e with
  | AssertionError msg => existsb (String.eqb msg) config_msgs
  | _ => false
  end.

Definition is_UnsupportedLayerType (e : PyExc) : bool :=
  match e with
  | NotImplementedError _ _ => true
  | _ => false
  end.

(** An exception the dispatcher raised itself (not one that came out of
    the fold routine). *)
Definition raised_by_dispatcher (e : PyExc) : bool :=
  is_ModeMismatch e || is_ConfigurationError e || is_UnsupportedLayerType e.

Definition is_effect (ev : Event) : bool :=
  match ev with
  | EvFold _ _ | EvConstruct _ _ => true
  | EvAssert _ | EvLookup _ => false
  end.

Definition is_config_check (ev : Event) : bool :=
  match ev with
  | EvAssert msg => existsb (String.eqb msg) config_msgs
  | _ => false
  end.
End Fusion.

(** [DEFAULT_SPCONV_QAT_MODULE_MAPPINGS] *)
Definition DEFAULT_SPCONV_QAT_MODULE_MAPPINGS : @dict PyClass PyClass :=
  dict_display class_eqb
    [ (SpconvBnNd, SparseConvBn);
      (SpconvBnReLUNd, SparseConvBnReLU) ].

Arguments mkConv {Tensor} _ _ _ _.
Arguments conv_class {Tensor} _.
Arguments conv_training {Tensor} _.
Arguments out_channels {Tensor} _.
Arguments conv_params {Tensor} _.
Arguments mkBatchNorm {Tensor} _ _ _ _ _.
Arguments bn_training {Tensor} _.
Arguments num_features {Tensor} _.
Arguments affine {Tensor} _.
Arguments track_running_stats {Tensor} _.
Arguments bn_state {Tensor} _.
Arguments ConvModule {Tensor} _.
Arguments BnModule {Tensor} _.
Arguments ReLUModule {Tensor} _.
Arguments Intrinsic {Tensor} _ _.
Arguments type_of {Tensor} _.
Arguments AssertionError {Tensor ExtExc} _.
Arguments NotImplementedError {Tensor ExtExc} _ _.
Arguments Propagated {Tensor ExtExc} _.
Arguments EvAssert {Tensor} _.
Arguments EvLookup {Tensor} _.
Arguments EvFold {Tensor} _ _.
Arguments EvConstruct {Tensor} _ _.
Arguments events {Tensor ExtExc A} _.
Arguments outcome {Tensor ExtExc A} _.
Arguments ret {Tensor ExtExc A} _.
Arguments bind {Tensor ExtExc A B} _ _.
Arguments raise {Tensor ExtExc A} _.
Arguments assert_ {Tensor ExtExc} _ _.
Arguments get {Tensor ExtExc} _ _.
Arguments construct {Tensor ExtExc} _ _.
Arguments call_fuse_spconv_bn_eval {Tensor ExtExc} _ _ _.
Arguments fuse_conv_bn {Tensor ExtExc} _ _ _.
Arguments fuse_conv_bn_relu {Tensor ExtExc} _ _ _ _.
Arguments Fuser2 {Tensor ExtExc} _.
Arguments Fuser3 {Tensor ExtExc} _.
Arguments DEFAULT_SPCONV_OP_LIST_TO_FUSER_METHOD {Tensor ExtExc} _.
Arguments is_ModeMismatch {Tensor ExtExc} _.
Arguments is_ConfigurationError {Tensor ExtExc} _.
Arguments is_UnsupportedLayerType {Tensor ExtExc} _.
Arguments raised_by_dispatcher {Tensor ExtExc} _.
Arguments is_effect {Tensor} _.
Arguments is_config_check {Tensor} _.

(** ** Concrete layers

    Layers over integer parameters and a fold routine that never raises:
    it returns a copy of the convolution whose parameters absorbed the
    state of the batch-norm. *)
Module Sample.
Definition fold (conv : Conv Z) (bn : BatchNorm Z) : (string + Conv Z)%type :=
  inr (mkConv (conv_class conv) (conv_training conv) (out_channels conv)
         (conv_params conv * bn_state bn)).

(** A fold routine that refuses a batch-norm without running
    statistics. *)
Definition strict_fold (conv : Conv Z) (bn : BatchNorm Z)
  : (string + Conv Z)%type :=
  if track_running_stats bn then fold conv bn
  else inl "unsupported operand type(s) for +: 'NoneType' and 'float'".

Definition conv3d_train : Conv Z := mkConv SubMConv3d true 16 5.
Definition conv3d_eval : Conv Z := mkConv SubMConv3d false 16 5.
Definition conv2d_eval : Conv Z := mkConv SparseInverseConv2d false 32 7.

(** A user-defined class derived from [SubMConv3d], and a dense
    convolution class. *)
Definition MyConv : PyClass := Subclass "MySubMConv3d" SubMConv3d.
Definition myconv_train : Conv Z := mkConv MyConv true 16 5.
Definition myconv_eval : Conv Z := mkConv MyConv false 16 5.
Definition dense_eval : Conv Z := mkConv (OtherClass "Conv2d") false 16 5.

Definition bn_train : BatchNorm Z := mkBatchNorm true 16 true true 3.
Definition bn_eval : BatchNorm Z := mkBatchNorm false 16 true true 3.
Definition bn_train_plain : BatchNorm Z := mkBatchNorm true 16 false true 3.
Definition bn_train_untracked : BatchNorm Z := mkBatchNorm true 16 true false 3.
(** In eval mode, not affine, without running statistics and with a
    channel count that fits no sample convolution. *)
Definition bn_eval_bare : BatchNorm Z := mkBatchNorm false 4 false false 3.

Definition relu_train : Activation := mkActivation true.
Definition relu_eval : Activation := mkActivation false.
End Sample.

(** ** Classes and lookups *)

Lemma class_eqb_eq (a b : PyClass) : class_eqb a b = true <-> a = b.
Proof.
  unfold class_eqb. destruct (PyClass_eq_dec a b); split; congruence.
Qed.

Lemma class_eqb_refl (a : PyClass) : class_eqb a a = true.
Proof. apply class_eqb_eq. reflexivity. Qed.

Lemma is_supported_In (c : PyClass) :
  is_supported c = true <-> In c supported_convs.
Proof.
  unfold is_supported. rewrite existsb_exists. split.
  - intros [d [Hin Heq]]. apply class_eqb_eq in Heq. now subst.
  - intros Hin. exists c. split; [assumption | apply class_eqb_refl].
Qed.

(** A table sending every key of [ks] to the same value [v]. *)
Lemma dict_get_const (ks : list PyClass) (v c : PyClass) :
  dict_get class_eqb (map (fun k => (k, v)) ks) c
  = if existsb (class_eqb c) ks then Some v else None.
Proof.
  induction ks as [| k ks IH]; simpl; [reflexivity |].
  destruct (class_eqb c k); simpl; [reflexivity | exact IH].
Qed.


Section Runs.
Context {Tensor ExtExc : Type}.
Variable fold : Conv Tensor -> BatchNorm Tensor -> (ExtExc + Conv Tensor)%type.

Lemma get_const_table (items : list (PyClass * PyClass)) (v c : PyClass) :
  dict_display class_eqb items = map (fun k => (k, v)) supported_convs ->
  @get Tensor ExtExc (dict_display class_eqb items) c
  = ([EvLookup c], inr (if is_supported c then Some v else None)).
Proof.
  intros ->. unfold get. rewrite dict_get_const. reflexivity.
Qed.

(** The run of [fuse_conv_bn], decision by decision. *)
Lemma fuse_conv_bn_run (conv : Conv Tensor) (bn : BatchNorm Tensor) :
  fuse_conv_bn fold conv bn =
  if negb (Bool.eqb (conv_training conv) (bn_training bn)) then
    ([EvAssert mode_msg], inl (AssertionError mode_msg))
  else if conv_training conv then
    if negb (num_features bn =? out_channels conv) then
      ([EvAssert mode_msg; EvAssert channels_msg_bn],
       inl (AssertionError channels_msg_bn))
    else if negb (affine bn) then
      ([EvAssert mode_msg; EvAssert channels_msg_bn; EvAssert affine_msg_bn],
       inl (AssertionError affine_msg_bn))
    else if negb (track_running_stats bn) then
      ([EvAssert mode_msg; EvAssert channels_msg_bn; EvAssert affine_msg_bn;
        EvAssert tracking_msg_bn],
       inl (AssertionError tracking_msg_bn))
    else if is_supported (conv_class conv) then
      ([EvAssert mode_msg; EvAssert channels_msg_bn; EvAssert affine_msg_bn;
        EvAssert tracking_msg_bn; EvLookup (conv_class conv);
        EvConstruct SpconvBnNd [ConvModule conv; BnModule bn]],
       inr (Intrinsic SpconvBnNd [ConvModule conv; BnModule bn]))
    else
      ([EvAssert mode_msg; EvAssert channels_msg_bn; EvAssert affine_msg_bn;
        EvAssert tracking_msg_bn; EvLookup (conv_class conv)],
       inl (NotImplementedError "Cannot fuse train modules: "
              [ConvModule conv; BnModule bn]))
  else
    ([EvAssert mode_msg; EvFold conv bn],
     match fold conv bn with
     | inl e => inl (Propagated e)
     | inr fused_conv => inr (ConvModule fused_conv)
     end).
Proof.
  unfold fuse_conv_bn.
  rewrite (get_const_table _ SpconvBnNd) by reflexivity.
  unfold training, Conv_training, BatchNorm_training.
  destruct (conv_training conv), (bn_training bn); try reflexivity.
  - destruct (num_features bn =? out_channels conv); [| reflexivity].
    destruct (affine bn); [| reflexivity].
    destruct (track_running_stats bn); [| reflexivity].
    destruct (is_supported (conv_class conv)); reflexivity.
  - unfold bind, call_fuse_spconv_bn_eval; simpl.
    destruct (fold conv bn); reflexivity.
Qed.

(** The run of [fuse_conv_bn_relu], decision by decision. *)
Lemma fuse_conv_bn_relu_run
    (conv : Conv Tensor) (bn : BatchNorm Tensor) (relu : Activation) :
  fuse_conv_bn_relu fold conv bn relu =
  if negb (Bool.eqb (conv_training conv) (bn_training bn)
           && Bool.eqb (bn_training bn) (relu_training relu)) then
    ([EvAssert mode_msg], inl (AssertionError mode_msg))
  else if conv_training conv then
    if negb (num_features bn =? out_channels conv) then
      ([EvAssert mode_msg; EvAssert channels_msg_bn_relu],
       inl (AssertionError channels_msg_bn_relu))
    else if negb (affine bn) then
      ([EvAssert mode_msg; EvAssert channels_msg_bn_relu;
        EvAssert affine_msg_bn_relu],
       inl (AssertionError affine_msg_bn_relu))
    else if negb (track_running_stats bn) then
      ([EvAssert mode_msg; EvAssert channels_msg_bn_relu;
        EvAssert affine_msg_bn_relu; EvAssert tracking_msg_bn_relu],
       inl (AssertionError tracking_msg_bn_relu))
    else if is_supported (conv_class conv) then
      ([EvAssert mode_msg; EvAssert channels_msg_bn_relu;
        EvAssert affine_msg_bn_relu; EvAssert tracking_msg_bn_relu;
        EvLookup (conv_class conv);
        EvConstruct SpconvBnReLUNd
          [ConvModule conv; BnModule bn; ReLUModule relu]],
       inr (Intrinsic SpconvBnReLUNd
              [ConvModule conv; BnModule bn; ReLUModule relu]))
    else
      ([EvAssert mode_msg; EvAssert channels_msg_bn_relu;
        EvAssert affine_msg_bn_relu; EvAssert tracking_msg_bn_relu;
        EvLookup (conv_class conv)],
       inl (NotImplementedError "Cannot fuse train modules: "
              [ConvModule conv; BnModule bn; ReLUModule relu]))
  else if is_supported (conv_class conv) then
    (EvAssert mode_msg :: EvLookup (conv_class conv) :: EvFold conv bn ::
     match fold conv bn with
     | inl _ => []
     | inr fused_conv =>
         [EvConstruct SpconvReLUNd [ConvModule fused_conv; ReLUModule relu]]
     end,
     match fold conv bn with
     | inl e => inl (Propagated e)
     | inr fused_conv =>
         inr (Intrinsic SpconvReLUNd [ConvModule fused_conv; ReLUModule relu])
     end)
  else
    ([EvAssert mode_msg; EvLookup (conv_class conv)],
     inl (NotImplementedError "Cannot fuse eval modules: "
            [ConvModule conv; BnModule bn; ReLUModule relu])).
Proof.
  unfold fuse_conv_bn_relu.
  rewrite (get_const_table _ SpconvBnReLUNd) by reflexivity.
  rewrite (get_const_table _ SpconvReLUNd) by reflexivity.
  unfold training, Conv_training, BatchNorm_training, Activation_training.
  destruct (conv_training conv), (bn_training bn), (relu_training relu);
    try reflexivity.
  - destruct (num_features bn =? out_channels conv); [| reflexivity].
    destruct (affine bn); [| reflexivity].
    destruct (track_running_stats bn); [| reflexivity].
    destruct (is_supported (conv_class conv)); reflexivity.
  - destruct (is_supported (conv_class conv)); [| reflexivity].
    unfold bind, call_fuse_spconv_bn_eval; simpl.
    destruct (fold conv bn); reflexivity.
Qed.
End Runs.

(** ** The dispatcher *)
Section Dispatcher.
Context {Tensor ExtExc : Type}.
Variable fold : Conv Tensor -> BatchNorm Tensor -> (ExtExc + Conv Tensor)%type.

Implicit Types (conv : Conv Tensor) (bn : BatchNorm Tensor) (relu : Activation).

Ltac flags :=
  unfold training, Conv_training, BatchNorm_training, Activation_training in *.

(** C2: when [conv.training] differs from [bn.training], [fuse_conv_bn]
    raises the mode-mismatch assertion, and when the three flags of
    conv, bn and relu are not all equal, so does [fuse_conv_bn_relu],
    whatever the other attributes and the class of the conv are.  The
    mode assertion is the only step of such a call, and it is the first
    step of every call of either function. *)
Theorem mode_mismatch_raises_first conv bn relu :
  (training conv <> training bn ->
   fuse_conv_bn fold conv bn
   = ([EvAssert mode_msg], inl (AssertionError mode_msg)))
  /\ (~ (training conv = training bn /\ training bn = training relu) ->
      fuse_conv_bn_relu fold conv bn relu
      = ([EvAssert mode_msg], inl (AssertionError mode_msg)))
  /\ is_ModeMismatch (@AssertionError Tensor ExtExc mode_msg) = true
  /\ (exists rest,
        events (fuse_conv_bn fold conv bn) = EvAssert mode_msg :: rest)
  /\ (exists rest,
        events (fuse_conv_bn_relu fold conv bn relu)
        = EvAssert mode_msg :: rest).
Proof.
  rewrite fuse_conv_bn_run, fuse_conv_bn_relu_run. flags.
  repeat split.
  - intros Hne.
    destruct (conv_training conv), (bn_training bn);
      try reflexivity; congruence.
  - intros Hne.
    destruct (conv_training conv), (bn_training bn), (relu_training relu);
      try reflexivity; exfalso; apply Hne; split; reflexivity.
  - destruct (negb _); [eexists; reflexivity |].
    destruct (conv_training conv); [| eexists; reflexivity].
    repeat (destruct (negb _); [eexists; reflexivity |]).
    destruct (is_supported _); eexists; reflexivity.
  - destruct (negb _); [eexists; reflexivity |].
    destruct (conv_training conv).
    + repeat (destruct (negb _); [eexists; reflexivity |]).
      destruct (is_supported _); eexists; reflexivity.
    + destruct (is_supported _); eexists; reflexivity.
Qed.

(** C3 (amended): with conv and bn in training mode, and for
    [fuse_conv_bn_relu] the relu in training mode as well, each of the
    three batch-norm conditions (channel count, [affine],
    [track_running_stats]) is asserted by both functions; a call
    violating any of them ends in the assertion of the first violated
    condition, a configuration error, and the three messages of a
    function are pairwise distinct.  With a relu in eval mode
    [fuse_conv_bn_relu] fails in the mode assertion instead, before any
    batch-norm condition is looked at. *)
Theorem training_config_violation_raises conv bn relu :
  training conv = true -> training bn = true ->
  num_features bn <> out_channels conv \/ affine bn = false
    \/ track_running_stats bn = false ->
  (exists e : @PyExc Tensor ExtExc,
      outcome (fuse_conv_bn fold conv bn) = inl e
      /\ is_ConfigurationError e = true
      /\ e = AssertionError
               (if negb (num_features bn =? out_channels conv)
                then channels_msg_bn
                else if negb (affine bn) then affine_msg_bn
                else tracking_msg_bn))
  /\ (training relu = true ->
      exists e : @PyExc Tensor ExtExc,
        outcome (fuse_conv_bn_relu fold conv bn relu) = inl e
        /\ is_ConfigurationError e = true
        /\ e = AssertionError
                 (if negb (num_features bn =? out_channels conv)
                  then channels_msg_bn_relu
                  else if negb (affine bn) then affine_msg_bn_relu
                  else tracking_msg_bn_relu))
  /\ (training relu = false ->
      outcome (fuse_conv_bn_relu fold conv bn relu)
      = inl (AssertionError mode_msg))
  /\ NoDup [channels_msg_bn; affine_msg_bn; tracking_msg_bn]
  /\ NoDup [channels_msg_bn_relu; affine_msg_bn_relu; tracking_msg_bn_relu].
Proof.
  intros Hc Hb Hbad.
  rewrite fuse_conv_bn_run, fuse_conv_bn_relu_run. flags.
  rewrite Hc, Hb.
  assert (Hcases :
    (num_features bn =? out_channels conv) = false
    \/ (num_features bn =? out_channels conv) = true /\ affine bn = false
    \/ (num_features bn =? out_channels conv) = true /\ affine bn = true
       /\ track_running_stats bn = false).
  { destruct (Z.eqb_spec (num_features bn) (out_channels conv)) as [He | Hn];
      [| now left].
    destruct Hbad as [Hn | [Ha | Ht]]; [contradiction | now right; left |].
    destruct (affine bn); [right; right; auto | right; left; auto]. }
  split; [| split; [intros Hr; rewrite Hr | split; [intros Hr; rewrite Hr |]]].
  - destruct Hcases as [H1 | [[H1 H2] | [H1 [H2 H3]]]];
      rewrite ?H1, ?H2, ?H3; simpl; eexists; repeat split; reflexivity.
  - destruct Hcases as [H1 | [[H1 H2] | [H1 [H2 H3]]]];
      rewrite ?H1, ?H2, ?H3; simpl; eexists; repeat split; reflexivity.
  - reflexivity.
  - split; repeat constructor; simpl; intuition discriminate.
Qed.

(** C4: for each of the nine supported variants, a training-mode call
    with an affine batch-norm that tracks its running statistics and has
    as many features as the conv has output channels returns the
    intrinsic wrapper: [fuse_conv_bn] an [SpconvBnNd] built from
    [(conv, bn)], [fuse_conv_bn_relu] an [SpconvBnReLUNd] built from
    [(conv, bn, relu)]. *)
Theorem training_supported_returns_intrinsic conv bn relu :
  In (conv_class conv) supported_convs ->
  training conv = true -> training bn = true ->
  num_features bn = out_channels conv ->
  affine bn = true -> track_running_stats bn = true ->
  outcome (fuse_conv_bn fold conv bn)
  = inr (Intrinsic SpconvBnNd [ConvModule conv; BnModule bn])
  /\ (training relu = true ->
      outcome (fuse_conv_bn_relu fold conv bn relu)
      = inr (Intrinsic SpconvBnReLUNd
               [ConvModule conv; BnModule bn; ReLUModule relu])).
Proof.
  intros Hin Hc Hb Hn Ha Ht.
  apply is_supported_In in Hin. apply Z.eqb_eq in Hn.
  rewrite fuse_conv_bn_run, fuse_conv_bn_relu_run. flags.
  rewrite Hc, Hb, Hn, Ha, Ht, Hin. split; [reflexivity |].
  intros ->. reflexivity.
Qed.

(** C5: in eval mode, for each of the nine supported variants,
    [fuse_conv_bn_relu] looks the class of the conv up, then calls the
    fold routine on [(conv, bn)], then constructs an [SpconvReLUNd] from
    the folded conv and the relu, and returns it; an exception of the
    fold routine ends the call before the wrapper is built. *)
Theorem eval_relu_folds_then_wraps conv bn relu :
  In (conv_class conv) supported_convs ->
  training conv = false -> training bn = false -> training relu = false ->
  events (fuse_conv_bn_relu fold conv bn relu)
  = EvAssert mode_msg :: EvLookup (conv_class conv) :: EvFold conv bn ::
    match fold conv bn with
    | inl _ => []
    | inr fused_conv =>
        [EvConstruct SpconvReLUNd [ConvModule fused_conv; ReLUModule relu]]
    end
  /\ (forall fused_conv, fold conv bn = inr fused_conv ->
      outcome (fuse_conv_bn_relu fold conv bn relu)
      = inr (Intrinsic SpconvReLUNd
               [ConvModule fused_conv; ReLUModule relu]))
  /\ (forall e, fold conv bn = inl e ->
      outcome (fuse_conv_bn_relu fold conv bn relu) = inl (Propagated e)).
Proof.
  intros Hin Hc Hb Hr. apply is_supported_In in Hin.
  rewrite fuse_conv_bn_relu_run. flags. rewrite Hc, Hb, Hr, Hin.
  repeat split; intros x Hx; simpl; rewrite Hx; reflexivity.
Qed.

(** C8: in eval mode [fuse_conv_bn_relu] asserts nothing about the
    batch-norm: for a supported variant no step of the call is one of
    the configuration assertions, the call raises no configuration
    error, and it returns the wrapper whenever the fold routine returns,
    whatever [affine], [track_running_stats] and [num_features] are. *)
Theorem eval_relu_skips_bn_validation conv bn relu :
  In (conv_class conv) supported_convs ->
  training conv = false -> training bn = false -> training relu = false ->
  forallb (fun ev => negb (is_config_check ev))
    (events (fuse_conv_bn_relu fold conv bn relu)) = true
  /\ (forall e, outcome (fuse_conv_bn_relu fold conv bn relu) = inl e ->
      is_ConfigurationError e = false)
  /\ (forall fused_conv, fold conv bn = inr fused_conv ->
      outcome (fuse_conv_bn_relu fold conv bn relu)
      = inr (Intrinsic SpconvReLUNd
               [ConvModule fused_conv; ReLUModule relu])).
Proof.
  intros Hin Hc Hb Hr. apply is_supported_In in Hin.
  rewrite fuse_conv_bn_relu_run. flags. rewrite Hc, Hb, Hr, Hin. simpl.
  destruct (fold conv bn) as [x | fc]; repeat split.
  - intros e [= <-]. reflexivity.
  - intros ? [=].
  - intros e [=].
  - intros ? [= <-]. reflexivity.
Qed.

(** C9: the quantization-aware table has exactly two entries,
    [SpconvBnNd] to [SparseConvBn] and [SpconvBnReLUNd] to
    [SparseConvBnReLU], and the class of every module a dispatcher
    returns in training mode is the key of exactly one of them. *)
Theorem qat_mapping_covers_training_intrinsics conv bn relu m :
  training conv = true ->
  outcome (fuse_conv_bn fold conv bn) = inr m
    \/ outcome (fuse_conv_bn_relu fold conv bn relu) = inr m ->
  DEFAULT_SPCONV_QAT_MODULE_MAPPINGS
  = [(SpconvBnNd, SparseConvBn); (SpconvBnReLUNd, SparseConvBnReLU)]
  /\ List.length DEFAULT_SPCONV_QAT_MODULE_MAPPINGS = 2%nat
  /\ List.length (filter (fun kv => class_eqb (type_of m) (fst kv))
               DEFAULT_SPCONV_QAT_MODULE_MAPPINGS) = 1%nat
  /\ (exists qat,
        dict_get class_eqb DEFAULT_SPCONV_QAT_MODULE_MAPPINGS (type_of m)
        = Some qat
        /\ (type_of m = SpconvBnNd /\ qat = SparseConvBn
            \/ type_of m = SpconvBnReLUNd /\ qat = SparseConvBnReLU)).
Proof.
  intros Hc Hret.
  assert (Hty : type_of m = SpconvBnNd \/ type_of m = SpconvBnReLUNd).
  { revert Hret. rewrite fuse_conv_bn_run, fuse_conv_bn_relu_run. flags.
    rewrite Hc. intros [H | H]; revert H.
    - destruct (negb _); [discriminate |].
      repeat (destruct (negb _); [discriminate |]).
      destruct (is_supported _); [| discriminate].
      intros [= <-]. now left.
    - destruct (negb _); [discriminate |].
      repeat (destruct (negb _); [discriminate |]).
      destruct (is_supported _); [| discriminate].
      intros [= <-]. now right. }
  split; [reflexivity | split; [reflexivity |]].
  destruct Hty as [-> | ->]; (split; [reflexivity |]).
  - exists SparseConvBn. split; [reflexivity | now left].
  - exists SparseConvBnReLU. split; [reflexivity | now right].
Qed.


(** C10: a call that ends in an exception the dispatcher raised itself
    (mode mismatch, configuration error, unsupported class) has neither
    called the fold routine nor constructed a module; in the eval branch
    of [fuse_conv_bn_relu] the lookup comes first, so for an unsupported
    class the call consists of the mode assertion and the lookup. *)
Theorem dispatcher_error_has_no_effect conv bn relu
    (e : @PyExc Tensor ExtExc) :
  raised_by_dispatcher e = true ->
  (outcome (fuse_conv_bn fold conv bn) = inl e ->
   forallb (fun ev => negb (is_effect ev))
     (events (fuse_conv_bn fold conv bn)) = true)
  /\ (outcome (fuse_conv_bn_relu fold conv bn relu) = inl e ->
      forallb (fun ev => negb (is_effect ev))
        (events (fuse_conv_bn_relu fold conv bn relu)) = true)
  /\ (~ In (conv_class conv) supported_convs ->
      training conv = false -> training bn = false ->
      training relu = false ->
      fuse_conv_bn_relu fold conv bn relu
      = ([EvAssert mode_msg; EvLookup (conv_class conv)],
         inl (NotImplementedError "Cannot fuse eval modules: "
                [ConvModule conv; BnModule bn; ReLUModule relu]))).
Proof.
  intros He.
  rewrite fuse_conv_bn_run, fuse_conv_bn_relu_run. flags.
  repeat apply conj.
  - destruct (negb _); [reflexivity |].
    destruct (conv_training conv).
    + repeat (destruct (negb _); [reflexivity |]).
      destruct (is_supported _); [discriminate | reflexivity].
    + simpl. destruct (fold conv bn); [| discriminate].
      intros [= <-]. discriminate.
  - destruct (negb _); [reflexivity |].
    destruct (conv_training conv).
    + repeat (destruct (negb _); [reflexivity |]).
      destruct (is_supported _); [discriminate | reflexivity].
    + destruct (is_supported _); [| reflexivity].
      simpl. destruct (fold conv bn); [| discriminate].
      intros [= <-]. discriminate.
  - intros Hnot -> -> ->.
    destruct (is_supported (conv_class conv)) eqn:E; [| reflexivity].
    apply is_supported_In in E. contradiction.
Qed.

(** C6: the op-sequence table holds, for each of the nine variants in
    turn, the pair [(variant, BatchNorm1d)] mapped to [fuse_conv_bn] and
    the triple [(variant, BatchNorm1d, ReLU)] mapped to
    [fuse_conv_bn_relu]: eighteen entries under eighteen different keys,
    and nothing else. *)
Theorem op_list_table_exact :
  DEFAULT_SPCONV_OP_LIST_TO_FUSER_METHOD fold
  = flat_map
      (fun c => [ ([c; BatchNorm1d], Fuser2 (fuse_conv_bn fold));
                  ([c; BatchNorm1d; ReLU], Fuser3 (fuse_conv_bn_relu fold)) ])
      supported_convs
  /\ List.length (DEFAULT_SPCONV_OP_LIST_TO_FUSER_METHOD fold) = 18%nat
  /\ NoDup (dict_keys (DEFAULT_SPCONV_OP_LIST_TO_FUSER_METHOD fold))
  /\ List.length supported_convs = 9%nat
  /\ NoDup supported_convs
  /\ Forall
       (fun c =>
          dict_get tuple_eqb (DEFAULT_SPCONV_OP_LIST_TO_FUSER_METHOD fold)
            [c; BatchNorm1d] = Some (Fuser2 (fuse_conv_bn fold))
          /\ dict_get tuple_eqb (DEFAULT_SPCONV_OP_LIST_TO_FUSER_METHOD fold)
               [c; BatchNorm1d; ReLU] = Some (Fuser3 (fuse_conv_bn_relu fold)))
       supported_convs
  /\ Forall
       (fun kv =>
          exists c, In c supported_convs
            /\ (kv = ([c; BatchNorm1d], Fuser2 (fuse_conv_bn fold))
                \/ kv = ([c; BatchNorm1d; ReLU],
                         Fuser3 (fuse_conv_bn_relu fold))))
       (DEFAULT_SPCONV_OP_LIST_TO_FUSER_METHOD fold).
Proof.
  assert (Htable :
    DEFAULT_SPCONV_OP_LIST_TO_FUSER_METHOD fold
    = flat_map
        (fun c => [ ([c; BatchNorm1d], Fuser2 (fuse_conv_bn fold));
                    ([c; BatchNorm1d; ReLU],
                     Fuser3 (fuse_conv_bn_relu fold)) ])
        supported_convs) by reflexivity.
  split; [exact Htable |]. rewrite Htable.
  split; [reflexivity |].
  split.
  { unfold dict_keys. simpl.
    repeat (constructor; [simpl; intuition discriminate |]). constructor. }
  split; [reflexivity |].
  split.
  { unfold supported_convs.
    repeat (constructor; [simpl; intuition discriminate |]). constructor. }
  split.
  - unfold supported_convs. repeat constructor.
  - simpl. repeat (constructor;
      [eexists; split; [| (left; reflexivity) || (right; reflexivity)];
       simpl; tauto |]).
    constructor.
Qed.
End Dispatcher.

(** ** The theorems at concrete layers *)

Import Sample.

Lemma mode_mismatch_raises_first_witness :
  training conv3d_train <> training bn_eval
  /\ fuse_conv_bn fold conv3d_train bn_eval
     = ([EvAssert mode_msg], inl (AssertionError mode_msg))
  /\ ~ (training conv3d_eval = training bn_eval
        /\ training bn_eval = training relu_train)
  /\ fuse_conv_bn_relu fold conv3d_eval bn_eval relu_train
     = ([EvAssert mode_msg], inl (AssertionError mode_msg)).
Proof.
  assert (H1 : training conv3d_train <> training bn_eval)
    by (simpl; discriminate).
  assert (H2 : ~ (training conv3d_eval = training bn_eval
                  /\ training bn_eval = training relu_train))
    by (simpl; intros [_ H]; discriminate H).
  split; [exact H1 |].
  split; [exact (proj1 (mode_mismatch_raises_first fold conv3d_train bn_eval
                          relu_train) H1) |].
  split; [exact H2 |].
  exact (proj1 (proj2 (mode_mismatch_raises_first fold conv3d_eval bn_eval
                         relu_train)) H2).
Defined.

Lemma training_config_violation_raises_witness :
  affine bn_train_plain = false
  /\ outcome (fuse_conv_bn fold conv3d_train bn_train_plain)
     = inl (AssertionError affine_msg_bn)
  /\ outcome (fuse_conv_bn_relu fold conv3d_train bn_train_plain relu_train)
     = inl (AssertionError affine_msg_bn_relu).
Proof.
  destruct (training_config_violation_raises fold conv3d_train bn_train_plain
              relu_train eq_refl eq_refl (or_intror (or_introl eq_refl)))
    as [[e [He [_ Hmsg]]] [Hrelu _]].
  destruct (Hrelu eq_refl) as [e' [He' [_ Hmsg']]].
  split; [reflexivity |]. split.
  - rewrite He, Hmsg. reflexivity.
  - rewrite He', Hmsg'. reflexivity.
Defined.

(** Conv and bn in training mode, the bn not affine, the relu in eval
    mode: [fuse_conv_bn_relu] stops at the mode assertion, where claim C3
    promises a configuration error. *)
Lemma relu_eval_config_violation_raises_mode_assertion :
  training conv3d_train = true /\ training bn_train_plain = true
  /\ affine bn_train_plain = false
  /\ fuse_conv_bn_relu fold conv3d_train bn_train_plain relu_eval
     = ([EvAssert mode_msg], inl (AssertionError mode_msg))
  /\ is_ConfigurationError (@AssertionError Z string mode_msg) = false
  /\ ~ (exists e,
          outcome (fuse_conv_bn_relu fold conv3d_train bn_train_plain
                     relu_eval) = inl e
          /\ is_ConfigurationError e = true).
Proof.
  repeat (split; [reflexivity |]).
  intros [e [He Hcfg]]. injection He as <-. discriminate Hcfg.
Qed.

Lemma training_supported_returns_intrinsic_witness :
  outcome (fuse_conv_bn fold conv3d_train bn_train)
  = inr (Intrinsic SpconvBnNd [ConvModule conv3d_train; BnModule bn_train])
  /\ outcome (fuse_conv_bn_relu fold conv3d_train bn_train relu_train)
     = inr (Intrinsic SpconvBnReLUNd
              [ConvModule conv3d_train; BnModule bn_train;
               ReLUModule relu_train]).
Proof.
  assert (Hin : In (conv_class conv3d_train) supported_convs)
    by (simpl; tauto).
  destruct (training_supported_returns_intrinsic fold conv3d_train bn_train
              relu_train Hin eq_refl eq_refl eq_refl eq_refl eq_refl)
    as [H2 H3].
  split; [exact H2 | exact (H3 eq_refl)].
Defined.

Lemma eval_relu_folds_then_wraps_witness :
  events (fuse_conv_bn_relu fold conv2d_eval bn_eval relu_eval)
  = [ EvAssert mode_msg; EvLookup SparseInverseConv2d;
      EvFold conv2d_eval bn_eval;
      EvConstruct SpconvReLUNd
        [ConvModule (mkConv SparseInverseConv2d false 32 21);
         ReLUModule relu_eval] ]
  /\ outcome (fuse_conv_bn_relu fold conv2d_eval bn_eval relu_eval)
     = inr (Intrinsic SpconvReLUNd
              [ConvModule (mkConv SparseInverseConv2d false 32 21);
               ReLUModule relu_eval]).
Proof.
  assert (Hin : In (conv_class conv2d_eval) supported_convs)
    by (simpl; tauto).
  destruct (eval_relu_folds_then_wraps fold conv2d_eval bn_eval relu_eval
              Hin eq_refl eq_refl eq_refl) as [Hev [Hret _]].
  split; [exact Hev | exact (Hret _ eq_refl)].
Defined.

Lemma eval_relu_skips_bn_validation_witness :
  affine bn_eval_bare = false
  /\ track_running_stats bn_eval_bare = false
  /\ num_features bn_eval_bare <> out_channels conv3d_eval
  /\ outcome (fuse_conv_bn_relu fold conv3d_eval bn_eval_bare relu_eval)
     = inr (Intrinsic SpconvReLUNd
              [ConvModule (mkConv SubMConv3d false 16 15);
               ReLUModule relu_eval]).
Proof.
  assert (Hin : In (conv_class conv3d_eval) supported_convs)
    by (simpl; tauto).
  destruct (eval_relu_skips_bn_validation fold conv3d_eval bn_eval_bare
              relu_eval Hin eq_refl eq_refl eq_refl) as [_ [_ Hret]].
  split; [reflexivity |]. split; [reflexivity |].
  split; [simpl; discriminate | exact (Hret _ eq_refl)].
Defined.

Lemma qat_mapping_covers_training_intrinsics_witness :
  dict_get class_eqb DEFAULT_SPCONV_QAT_MODULE_MAPPINGS
    (type_of (Intrinsic SpconvBnReLUNd
                [ConvModule conv3d_train; BnModule bn_train;
                 ReLUModule relu_train]))
  = Some SparseConvBnReLU.
Proof.
  destruct (qat_mapping_covers_training_intrinsics fold conv3d_train bn_train
              relu_train
              (Intrinsic SpconvBnReLUNd
                 [ConvModule conv3d_train; BnModule bn_train;
                  ReLUModule relu_train])
              eq_refl (or_intror eq_refl))
    as [_ [_ [_ [qat [Hget [[Hty _] | [_ Hq]]]]]]].
  - discriminate Hty.
  - rewrite Hget, Hq. reflexivity.
Defined.


Lemma dispatcher_error_has_no_effect_witness :
  events (fuse_conv_bn_relu fold myconv_eval bn_eval relu_eval)
  = [EvAssert mode_msg; EvLookup MyConv]
  /\ forallb (fun ev => negb (is_effect ev))
       (events (fuse_conv_bn fold conv3d_train bn_train_untracked)) = true.
Proof.
  assert (Hnot : ~ In (conv_class myconv_eval) supported_convs)
    by (simpl; intuition discriminate).
  split.
  - destruct (dispatcher_error_has_no_effect fold myconv_eval bn_eval relu_eval
                (NotImplementedError "Cannot fuse eval modules: "
                   [ConvModule myconv_eval; BnModule bn_eval;
                    ReLUModule relu_eval]) eq_refl) as [_ [_ Hrun]].
    rewrite (Hrun Hnot eq_refl eq_refl eq_refl). reflexivity.
  - exact (proj1 (dispatcher_error_has_no_effect fold conv3d_train
                    bn_train_untracked relu_train
                    (AssertionError tracking_msg_bn) eq_refl) eq_refl).
Defined.


(** The same call with a dense convolution class and with a fold routine
    that raises: the exception of the routine comes out as it is. *)
Example dense_conv_eval_fuse_conv_bn_returns :
  outcome (fuse_conv_bn fold dense_eval bn_eval)
  = inr (ConvModule (mkConv (OtherClass "Conv2d") false 16 15)).
Proof. reflexivity. Qed.

Example strict_fold_exception_propagates :
  fuse_conv_bn_relu strict_fold conv3d_eval bn_eval_bare relu_eval
  = ([EvAssert mode_msg; EvLookup SubMConv3d; EvFold conv3d_eval bn_eval_bare],
     inl (Propagated
            "unsupported operand type(s) for +: 'NoneType' and 'float'")).
Proof. reflexivity. Qed.

(** ** Further properties of the tables and the dispatcher *)
Section Further.
Context {Tensor ExtExc : Type}.
Variable fold : Conv Tensor -> BatchNorm Tensor -> (ExtExc + Conv Tensor)%type.

Implicit Types (conv : Conv Tensor) (bn : BatchNorm Tensor) (relu : Activation).

Ltac attrs :=
  unfold training, Conv_training, BatchNorm_training, Activation_training in *.

(** The entries a list [cs] of conv classes contributes to the op-sequence
    table. *)
Let entries (cs : list PyClass)
  : @dict (list PyClass) (FuserMethod Tensor ExtExc) :=
  flat_map
    (fun c => [ ([c; BatchNorm1d], Fuser2 (fuse_conv_bn fold));
                ([c; BatchNorm1d; ReLU], Fuser3 (fuse_conv_bn_relu fold)) ])
    cs.

Lemma op_list_table_entries :
  DEFAULT_SPCONV_OP_LIST_TO_FUSER_METHOD fold = entries supported_convs.
Proof. reflexivity. Qed.

Lemma entries_get_pair (cs : list PyClass) (c b : PyClass) :
  dict_get tuple_eqb (entries cs) [c; b]
  = if existsb (class_eqb c) cs && class_eqb b BatchNorm1d
    then Some (Fuser2 (fuse_conv_bn fold)) else None.
Proof.
  induction cs as [| a cs IH]; [reflexivity |].
  simpl. destruct (class_eqb c a), (class_eqb b BatchNorm1d); simpl;
    try reflexivity; rewrite IH; simpl;
    try rewrite andb_false_r; reflexivity.
Qed.

Lemma entries_get_triple (cs : list PyClass) (c b r : PyClass) :
  dict_get tuple_eqb (entries cs) [c; b; r]
  = if existsb (class_eqb c) cs && class_eqb b BatchNorm1d && class_eqb r ReLU
    then Some (Fuser3 (fuse_conv_bn_relu fold)) else None.
Proof.
  induction cs as [| a cs IH]; [reflexivity |].
  simpl.
  destruct (class_eqb c a), (class_eqb b BatchNorm1d), (class_eqb r ReLU);
    simpl; try reflexivity; rewrite IH; simpl;
    try rewrite andb_false_r; reflexivity.
Qed.

Lemma entries_get_other (cs : list PyClass) (key : list PyClass) :
  List.length key <> 2%nat -> List.length key <> 3%nat ->
  dict_get tuple_eqb (entries cs) key = None.
Proof.
  intros H2 H3. induction cs as [| a cs IH]; [reflexivity |].
  destruct key as [| k1 [| k2 [| k3 [| k4 rest]]]]; simpl in *;
    try congruence; try exact IH;
    rewrite ?andb_false_r; simpl; exact IH.
Qed.

(** X1: looking a key up in the op-sequence table succeeds exactly for a
    pair [(c, BatchNorm1d)] and a triple [(c, BatchNorm1d, ReLU)] with [c]
    one of the nine variants; a class derived from a variant, another
    batch-norm or activation class, and a key of any other length are
    missing. *)
Theorem op_list_lookup_exact (key : list PyClass) :
  dict_get tuple_eqb (DEFAULT_SPCONV_OP_LIST_TO_FUSER_METHOD fold) key
  = match key with
    | [c; b] =>
        if is_supported c && class_eqb b BatchNorm1d
        then Some (Fuser2 (fuse_conv_bn fold)) else None
    | [c; b; r] =>
        if is_supported c && class_eqb b BatchNorm1d && class_eqb r ReLU
        then Some (Fuser3 (fuse_conv_bn_relu fold)) else None
    | _ => None
    end.
Proof.
  rewrite op_list_table_entries.
  destruct key as [| c [| b [| r [| x rest]]]].
  - apply entries_get_other; discriminate.
  - apply entries_get_other; discriminate.
  - apply entries_get_pair.
  - apply entries_get_triple.
  - apply entries_get_other; discriminate.
Qed.

(** X2: a fuser method found in the op-sequence table under the classes
    of the layers at hand accepts the class of the conv: applied to those
    layers it never raises [NotImplementedError]. *)
Theorem table_fuser_accepts_conv_class conv bn relu :
  (forall f,
      dict_get tuple_eqb (DEFAULT_SPCONV_OP_LIST_TO_FUSER_METHOD fold)
        [type_of (ConvModule conv); type_of (BnModule bn)]
      = Some (Fuser2 f) ->
      forall e, outcome (f conv bn) = inl e ->
                is_UnsupportedLayerType e = false)
  /\ (forall f,
        dict_get tuple_eqb (DEFAULT_SPCONV_OP_LIST_TO_FUSER_METHOD fold)
          [type_of (ConvModule conv); type_of (BnModule bn);
           type_of (@ReLUModule Tensor relu)]
        = Some (Fuser3 f) ->
        forall e, outcome (f conv bn relu) = inl e ->
                  is_UnsupportedLayerType e = false).
Proof.
  rewrite op_list_table_entries, entries_get_pair, entries_get_triple.
  simpl type_of. fold (is_supported (conv_class conv)).
  split; intros f Hget e.
  - destruct (is_supported (conv_class conv)) eqn:Hsup; [| discriminate].
    simpl in Hget. injection Hget as <-.
    rewrite fuse_conv_bn_run, Hsup.
    destruct (negb _); [intros [= <-]; reflexivity |].
    destruct (conv_training conv).
    + repeat (destruct (negb _); [intros [= <-]; reflexivity |]).
      discriminate.
    + simpl. destruct (fold conv bn); [intros [= <-]; reflexivity |].
      discriminate.
  - destruct (is_supported (conv_class conv)) eqn:Hsup; [| discriminate].
    simpl in Hget. injection Hget as <-.
    rewrite fuse_conv_bn_relu_run, Hsup.
    destruct (negb _); [intros [= <-]; reflexivity |].
    destruct (conv_training conv).
    + repeat (destruct (negb _); [intros [= <-]; reflexivity |]).
      discriminate.
    + simpl. destruct (fold conv bn); [intros [= <-]; reflexivity |].
      discriminate.
Qed.

(** X3: a training-mode call returns a module only when every check
    passed: [fuse_conv_bn] returns [m] exactly when the bn is in training
    mode, has as many features as the conv has output channels, is affine
    and tracks its running statistics, the class of the conv is one of
    the nine variants, and [m] is the [SpconvBnNd] built from
    [(conv, bn)]; likewise [fuse_conv_bn_relu], with the relu in training
    mode and the [SpconvBnReLUNd] built from [(conv, bn, relu)]. *)
Theorem training_return_iff conv bn relu (m : Module Tensor) :
  training conv = true ->
  (outcome (fuse_conv_bn fold conv bn) = inr m <->
   training bn = true
   /\ num_features bn = out_channels conv
   /\ affine bn = true /\ track_running_stats bn = true
   /\ In (conv_class conv) supported_convs
   /\ m = Intrinsic SpconvBnNd [ConvModule conv; BnModule bn])
  /\ (outcome (fuse_conv_bn_relu fold conv bn relu) = inr m <->
      training bn = true /\ training relu = true
      /\ num_features bn = out_channels conv
      /\ affine bn = true /\ track_running_stats bn = true
      /\ In (conv_class conv) supported_convs
      /\ m = Intrinsic SpconvBnReLUNd
               [ConvModule conv; BnModule bn; ReLUModule relu]).
Proof.
  intros Hc. rewrite <- is_supported_In, <- Z.eqb_eq.
  rewrite fuse_conv_bn_run, fuse_conv_bn_relu_run. attrs. rewrite Hc.
  destruct (bn_training bn), (relu_training relu),
    (num_features bn =? out_channels conv), (affine bn),
    (track_running_stats bn), (is_supported (conv_class conv)); simpl;
    (split;
     (split;
      [ intros H; try discriminate H; injection H as <-; repeat split
      | intros H; decompose [and] H; subst; try discriminate; reflexivity ])).
Qed.

(** X4: in eval mode, for a supported variant, [fuse_conv_bn_relu] is
    [fuse_conv_bn] followed by wrapping: it returns the [SpconvReLUNd]
    built from the module [fuse_conv_bn] returns and the relu, and raises
    what [fuse_conv_bn] raises. *)
Theorem eval_relu_wraps_fuse_conv_bn conv bn relu :
  In (conv_class conv) supported_convs ->
  training conv = false -> training bn = false -> training relu = false ->
  outcome (fuse_conv_bn_relu fold conv bn relu)
  = match outcome (fuse_conv_bn fold conv bn) with
    | inl e => inl e
    | inr m => inr (Intrinsic SpconvReLUNd [m; ReLUModule relu])
    end.
Proof.
  intros Hin Hc Hb Hr. apply is_supported_In in Hin.
  rewrite fuse_conv_bn_run, fuse_conv_bn_relu_run. attrs.
  rewrite Hc, Hb, Hr, Hin. simpl.
  destruct (fold conv bn); reflexivity.
Qed.

(** X5: a call with the conv in training mode never reaches the fold
    routine: whatever routine is plugged in, the steps and the result of
    both functions are the same, and no step is a call of it. *)
Theorem training_call_never_folds
    (fold' : Conv Tensor -> BatchNorm Tensor -> (ExtExc + Conv Tensor)%type)
    conv bn relu :
  training conv = true ->
  fuse_conv_bn fold conv bn = fuse_conv_bn fold' conv bn
  /\ fuse_conv_bn_relu fold conv bn relu = fuse_conv_bn_relu fold' conv bn relu
  /\ (forall c b, ~ In (EvFold c b) (events (fuse_conv_bn fold conv bn)))
  /\ (forall c b,
        ~ In (EvFold c b) (events (fuse_conv_bn_relu fold conv bn relu))).
Proof.
  intros Hc. rewrite !fuse_conv_bn_run, !fuse_conv_bn_relu_run. attrs.
  rewrite Hc.
  split; [reflexivity | split; [reflexivity |]].
  split; intros c b;
    (destruct (negb _); [simpl; intuition discriminate |]);
    repeat (destruct (negb _); [simpl; intuition discriminate |]);
    destruct (is_supported _); simpl; intuition discriminate.
Qed.

(** X6: the class of a module [fuse_conv_bn_relu] returns depends on the
    mode alone: [SpconvBnReLUNd] in training mode, [SpconvReLUNd] in eval
    mode, and the eval-mode class has no entry in the quantization-aware
    table. *)
Theorem relu_result_class_by_mode conv bn relu (m : Module Tensor) :
  outcome (fuse_conv_bn_relu fold conv bn relu) = inr m ->
  type_of m = (if training conv then SpconvBnReLUNd else SpconvReLUNd)
  /\ (training conv = false ->
      dict_get class_eqb DEFAULT_SPCONV_QAT_MODULE_MAPPINGS (type_of m)
      = None).
Proof.
  rewrite fuse_conv_bn_relu_run. attrs.
  destruct (negb _); [discriminate |].
  destruct (conv_training conv).
  - repeat (destruct (negb _); [discriminate |]).
    destruct (is_supported _); [| discriminate].
    intros [= <-]. split; [reflexivity | discriminate].
  - destruct (is_supported _); [| discriminate].
    simpl. destruct (fold conv bn); [discriminate |].
    intros [= <-]. split; reflexivity.
Qed.

(** X7: in training mode the two functions accept the same pairs
    [(conv, bn)]: with a relu in training mode, [fuse_conv_bn] returns the
    wrapper of [args] exactly when [fuse_conv_bn_relu] returns the
    wrapper of [args] followed by the relu. *)
Theorem training_functions_agree conv bn relu (args : list (Module Tensor)) :
  training conv = true -> training relu = true ->
  (outcome (fuse_conv_bn fold conv bn) = inr (Intrinsic SpconvBnNd args) <->
   outcome (fuse_conv_bn_relu fold conv bn relu)
   = inr (Intrinsic SpconvBnReLUNd (args ++ [ReLUModule relu])%list)).
Proof.
  intros Hc Hr.
  rewrite fuse_conv_bn_run, fuse_conv_bn_relu_run. attrs. rewrite Hc, Hr.
  destruct (bn_training bn); simpl; [| split; discriminate].
  repeat (destruct (negb _); [split; discriminate |]).
  destruct (is_supported _); [| split; discriminate].
  split.
  - intros [= <-]. reflexivity.
  - intros [= H]. symmetry in H.
    change [ConvModule conv; BnModule bn; ReLUModule relu]
      with ([ConvModule conv; BnModule bn] ++ [ReLUModule relu])%list in H.
    apply app_inj_tail in H. destruct H as [-> _]. reflexivity.
Qed.

(** X8: in eval mode [fuse_conv_bn] raises nothing of its own, whatever
    the class of the conv and the configuration of the bn are: its steps
    are the mode assertion and the call of the fold routine, it returns
    the conv the routine returns, and the only exceptions that come out
    are those of the routine. *)
Theorem eval_fuse_conv_bn_only_fold_errors conv bn :
  training conv = false -> training bn = false ->
  events (fuse_conv_bn fold conv bn) = [EvAssert mode_msg; EvFold conv bn]
  /\ (forall m, outcome (fuse_conv_bn fold conv bn) = inr m <->
                exists fused_conv,
                  fold conv bn = inr fused_conv /\ m = ConvModule fused_conv)
  /\ (forall e, outcome (fuse_conv_bn fold conv bn) = inl e <->
                exists x, fold conv bn = inl x /\ e = Propagated x).
Proof.
  intros Hc Hb. rewrite fuse_conv_bn_run. attrs. rewrite Hc, Hb. simpl.
  split; [reflexivity |].
  destruct (fold conv bn) as [x | fc]; split; intros y; split.
  - discriminate.
  - intros [z [[=] _]].
  - intros [= <-]. exists x. split; reflexivity.
  - intros [z [[= <-] ->]]. reflexivity.
  - intros [= <-]. exists fc. split; reflexivity.
  - intros [z [[= <-] ->]]. reflexivity.
  - discriminate.
  - intros [z [[=] _]].
Qed.
End Further.

(** ** The further properties at concrete layers *)

Lemma table_fuser_accepts_conv_class_witness :
  dict_get tuple_eqb (DEFAULT_SPCONV_OP_LIST_TO_FUSER_METHOD fold)
    [SubMConv3d; BatchNorm1d] = Some (Fuser2 (fuse_conv_bn fold))
  /\ outcome (fuse_conv_bn fold conv3d_train bn_train_plain)
     = inl (AssertionError affine_msg_bn)
  /\ is_UnsupportedLayerType
       (@AssertionError Z string affine_msg_bn) = false.
Proof.
  split; [reflexivity |]. split; [reflexivity |].
  exact (proj1 (table_fuser_accepts_conv_class fold conv3d_train
                  bn_train_plain relu_train)
           (fuse_conv_bn fold) eq_refl (AssertionError affine_msg_bn) eq_refl).
Defined.

Lemma training_return_iff_witness :
  In (conv_class conv3d_train) supported_convs
  /\ num_features bn_train = out_channels conv3d_train
  /\ affine bn_train = true /\ track_running_stats bn_train = true.
Proof.
  destruct (proj1 (proj1 (training_return_iff fold conv3d_train bn_train
                            relu_train
                            (Intrinsic SpconvBnNd
                               [ConvModule conv3d_train; BnModule bn_train])
                            eq_refl)) eq_refl)
    as [_ [Hn [Ha [Ht [Hin _]]]]].
  repeat split; assumption.
Defined.

Lemma eval_relu_wraps_fuse_conv_bn_witness :
  outcome (fuse_conv_bn fold conv2d_eval bn_eval)
  = inr (ConvModule (mkConv SparseInverseConv2d false 32 21))
  /\ outcome (fuse_conv_bn_relu fold conv2d_eval bn_eval relu_eval)
     = inr (Intrinsic SpconvReLUNd
              [ConvModule (mkConv SparseInverseConv2d false 32 21);
               ReLUModule relu_eval]).
Proof.
  assert (Hin : In (conv_class conv2d_eval) supported_convs)
    by (simpl; tauto).
  split; [reflexivity |].
  rewrite (eval_relu_wraps_fuse_conv_bn fold conv2d_eval bn_eval relu_eval
             Hin eq_refl eq_refl eq_refl).
  reflexivity.
Defined.

Lemma training_call_never_folds_witness :
  fuse_conv_bn fold conv3d_train bn_train
  = fuse_conv_bn strict_fold conv3d_train bn_train
  /\ fuse_conv_bn_relu fold myconv_train bn_train_untracked relu_train
     = fuse_conv_bn_relu strict_fold myconv_train bn_train_untracked
         relu_train.
Proof.
  split.
  - exact (proj1 (training_call_never_folds fold strict_fold conv3d_train
                    bn_train relu_train eq_refl)).
  - exact (proj1 (proj2 (training_call_never_folds fold strict_fold
                           myconv_train bn_train_untracked relu_train
                           eq_refl))).
Defined.

Lemma relu_result_class_by_mode_witness :
  dict_get class_eqb DEFAULT_SPCONV_QAT_MODULE_MAPPINGS
    (type_of (Intrinsic SpconvReLUNd
                [ConvModule (mkConv SubMConv3d false 16 15);
                 ReLUModule relu_eval]))
  = None.
Proof.
  exact (proj2 (relu_result_class_by_mode fold conv3d_eval bn_eval relu_eval
                  (Intrinsic SpconvReLUNd
                     [ConvModule (mkConv SubMConv3d false 16 15);
                      ReLUModule relu_eval]) eq_refl) eq_refl).
Defined.

Lemma training_functions_agree_witness :
  outcome (fuse_conv_bn_relu fold conv3d_train bn_train relu_train)
  = inr (Intrinsic SpconvBnReLUNd
           [ConvModule conv3d_train; BnModule bn_train;
            ReLUModule relu_train]).
Proof.
  exact (proj1 (training_functions_agree fold conv3d_train bn_train relu_train
                  [ConvModule conv3d_train; BnModule bn_train]
                  eq_refl eq_refl) eq_refl).
Defined.

Lemma eval_fuse_conv_bn_only_fold_errors_witness :
  events (fuse_conv_bn strict_fold dense_eval bn_eval_bare)
  = [EvAssert mode_msg; EvFold dense_eval bn_eval_bare]
  /\ outcome (fuse_conv_bn strict_fold dense_eval bn_eval_bare)
     = inl (Propagated
              "unsupported operand type(s) for +: 'NoneType' and 'float'")
  /\ outcome (fuse_conv_bn fold dense_eval bn_eval_bare)
     = inr (ConvModule (mkConv (OtherClass "Conv2d") false 16 15)).
Proof.
  destruct (eval_fuse_conv_bn_only_fold_errors strict_fold dense_eval
              bn_eval_bare eq_refl eq_refl) as [Hev [_ Hexc]].
  destruct (eval_fuse_conv_bn_only_fold_errors fold dense_eval
              bn_eval_bare eq_refl eq_refl) as [_ [Hret _]].
  split; [exact Hev |]. split.
  - apply Hexc. eexists. split; reflexivity.
  - apply Hret. eexists. split; reflexivity.
Defined.
